(** * Products.Relations.components.types

    A shallow embedding of [PortalTypeConstraint] and [InterfaceConstraint]
    (src/Products/Relations/components/types.py): the vocabulary provider
    [makeVocabulary], [getSearchTerms], and the validators
    [validateConnected] and [validateDisconnected].

    Portal types and interface names are strings; a Python list of them is
    a [list string]; the keyword dictionary handed to the UID catalog is a
    [gmap string (list string)]; a raised [ValidationException] is the
    [Raised] branch of an exception monad. *)

From stdpp Require Import base strings list gmap.

Set Default Proof Using "Type".

(** ** Python values *)

(** [if l:] on a list: a list is true when it has an element. *)
Definition truthy {A : Type} (l : list A) : bool :=
  match l with
  | [] => false
  | _ :: _ => true
  end.

(** [x in l] on a list of strings: the first element equal to [x] decides. *)
Fixpoint py_in (x : string) (l : list string) : bool :=
  match l with
  | [] => false
  | y :: l' => if String.eqb y x then true else py_in x l'
  end.

(** [x not in l]. *)
Definition py_not_in (x : string) (l : list string) : bool := negb (py_in x l).

(** A call either returns a value or raises. *)
Inductive outcome (E A : Type) : Type :=
  | Returned (a : A)
  | Raised (e : E).
Arguments Returned {E A} a.
Arguments Raised {E A} e.

(** One statement after another: the second runs when the first returned. *)
Definition and_then {E A B : Type}
    (m : outcome E A) (k : A → outcome E B) : outcome E B :=
  match m with
  | Returned a => k a
  | Raised e => Raised e
  end.

Declare Scope outcome_scope.
Delimit Scope outcome_scope with outcome.
Notation "m ;; k" := (and_then m (λ _, k))
  (at level 100, k at level 200, right associativity) : outcome_scope.

(** [raise e]. *)
Definition raise {E A : Type} (e : E) : outcome E A := Raised e.

(** [pass], and falling off the end of a function body: [None] is returned. *)
Definition pass {E : Type} : outcome E unit := Returned tt.

(** ** The objects the rules look at *)

(** Anything with a [portal_type] attribute: content objects and brain
    aggregates alike. *)
Class PortalTyped (A : Type) := portal_type : A → string.

(** A reference, as far as the validators read it:
    [reference.getSourceBrain()] and [reference.getTargetBrain()]. *)
Record Reference (B : Type) : Type := mkReference {
  getSourceBrain : B;
  getTargetBrain : B
}.
Arguments mkReference {B} _ _.
Arguments getSourceBrain {B} _.
Arguments getTargetBrain {B} _.

(** [exception.ValidationException(message, reference, chain)]: the one
    exception class this module raises. *)
Record ValidationException (B Chain : Type) : Type := mkValidationException {
  message : string;
  reference : Reference B;
  chain : Chain
}.
Arguments mkValidationException {B Chain} _ _ _.
Arguments message {B Chain} _.
Arguments reference {B Chain} _.
Arguments chain {B Chain} _.

(** The ruleset a rule lives in; the validators read its [Title()]. *)
Record Ruleset : Type := mkRuleset {
  Title : string
}.

(** ** The rule classes *)

(** What [makeVocabulary], [getSearchTerms] and [validateConnected] call on
    [self]: the two accessors that [InterfaceConstraint] overrides, and
    [getRuleset] of [ruleset.RuleBase]. *)
Class Constraint (R : Type) := {
  getAllowedSourceTypes : R → list string;
  getAllowedTargetTypes : R → list string;
  getRuleset : R → Ruleset
}.

(** [PortalTypeConstraint]: the schema's two [LinesField]s, and the ruleset
    the rule is placed in. *)
Record PortalTypeConstraint : Type := mkPortalTypeConstraint {
  allowedSourceTypes : list string;
  allowedTargetTypes : list string;
  ptc_ruleset : Ruleset
}.

(** The accessors Archetypes generates for the two fields return the stored
    lines. *)
#[export] Instance PortalTypeConstraint_Constraint : Constraint PortalTypeConstraint := {|
  getAllowedSourceTypes := allowedSourceTypes;
  getAllowedTargetTypes := allowedTargetTypes;
  getRuleset := ptc_ruleset
|}.

(** [InterfaceConstraint]: its schema replaces the two fields by lists of
    interface names. *)
Record InterfaceConstraint : Type := mkInterfaceConstraint {
  allowedSourceInterfaces : list string;
  allowedTargetInterfaces : list string;
  ic_ruleset : Ruleset
}.

(** [utils.getPortalTypesByInterfaces(context, allowed)]: the lookup of the
    portal types behind a list of interfaces.  Its module is not among the
    sources, so the rules are stated for every such lookup; it is taken to
    hand out a list of its own on each call, as [append] below changes the
    list in place. *)
Class PortalTypesByInterfaces :=
  getPortalTypesByInterfaces : InterfaceConstraint → list string → list string.

(** The portal type appended to every resolved list. *)
Definition spam : string := "spam".

Definition _getPortalTypesByInterfaces {lookup : PortalTypesByInterfaces}
    (self : InterfaceConstraint) (allowed : list string) : list string :=
  let portal_types := getPortalTypesByInterfaces self allowed in
  (* portal_types.append('spam') *)
  portal_types ++ [spam].

Definition InterfaceConstraint_getAllowedSourceTypes {lookup : PortalTypesByInterfaces}
    (self : InterfaceConstraint) : list string :=
  let asi := allowedSourceInterfaces self in
  if truthy asi then _getPortalTypesByInterfaces self asi else [].

Definition InterfaceConstraint_getAllowedTargetTypes {lookup : PortalTypesByInterfaces}
    (self : InterfaceConstraint) : list string :=
  let ati := allowedTargetInterfaces self in
  if truthy ati then _getPortalTypesByInterfaces self ati else [].

#[export] Instance InterfaceConstraint_Constraint {lookup : PortalTypesByInterfaces} :
    Constraint InterfaceConstraint := {|
  getAllowedSourceTypes := InterfaceConstraint_getAllowedSourceTypes;
  getAllowedTargetTypes := InterfaceConstraint_getAllowedTargetTypes;
  getRuleset := ic_ruleset
|}.

(** ** The catalog *)

(** The two collaborators of the search path of [makeVocabulary]:
    [getToolByName(self, UID_CATALOG)] called with keyword arguments, and
    [brain.makeBrainAggregate(self, o)]. *)
Class Catalog (R Hit Item : Type) := {
  uid_catalog : R → gmap string (list string) → list Hit;
  makeBrainAggregate : R → Hit → Item
}.

(** ** The methods inherited by both rule classes *)

Section methods.
Context {R : Type} `{!Constraint R}.

Definition getSearchTerms (self : R) : gmap string (list string) :=
  let d : gmap string (list string) := ∅ in
  let att := getAllowedTargetTypes self in
  if truthy att then <["portal_type" := att]> d else d.

Definition makeVocabulary {S Hit Item : Type}
    `{!PortalTyped S} `{!PortalTyped Item} `{!Catalog R Hit Item}
    (self : R) (source : S) (targets : option (list Item)) : list Item :=
  let ast := getAllowedSourceTypes self in
  let att := getAllowedTargetTypes self in
  if truthy ast && py_not_in (portal_type source) ast then []
  else
    match targets with
    | Some targets =>
        List.filter
          (λ t, negb (truthy att) || py_in (portal_type t) att) targets
    | None =>
        let objs := uid_catalog self (getSearchTerms self) in
        List.map (makeBrainAggregate self) objs
    end.

(** The two messages, ["... %s not allowed for '%s'." % (type, title)]. *)
Definition source_message (st title : string) : string :=
  "Source type " +:+ st +:+ " not allowed for '" +:+ title +:+ "'.".

Definition target_message (tt title : string) : string :=
  "Target type " +:+ tt +:+ " not allowed for '" +:+ title +:+ "'.".

Definition validateConnected {B Chain : Type} `{!PortalTyped B}
    (self : R) (reference : Reference B) (chain : Chain)
    : outcome (ValidationException B Chain) unit :=
  let ast := getAllowedSourceTypes self in
  let att := getAllowedTargetTypes self in
  let st := portal_type (getSourceBrain reference) in
  let tt := portal_type (getTargetBrain reference) in
  ((if truthy ast then
     if py_not_in st ast then
       raise (mkValidationException
                (source_message st (Title (getRuleset self))) reference chain)
     else pass
   else pass) ;;
  (if truthy att then
     if py_not_in tt att then
       raise (mkValidationException
                (target_message tt (Title (getRuleset self))) reference chain)
     else pass
   else pass) ;;
  pass)%outcome.

(** The body is a docstring only. *)
Definition validateDisconnected {B Chain : Type}
    (self : R) (reference : Reference B) (chain : Chain)
    : outcome (ValidationException B Chain) unit :=
  pass.

End methods.

(** ** The failures of [validateConnected] *)

Section failures.
Context {R : Type} `{!Constraint R}.
Context {B Chain : Type} `{!PortalTyped B}.

(** The exception raised by the source check, and the one raised by the
    target check, of [validateConnected self reference chain]. *)
Definition source_failure (self : R) (reference : Reference B) (chain : Chain)
    : ValidationException B Chain :=
  mkValidationException
    (source_message (portal_type (getSourceBrain reference))
       (Title (getRuleset self)))
    reference chain.

Definition target_failure (self : R) (reference : Reference B) (chain : Chain)
    : ValidationException B Chain :=
  mkValidationException
    (target_message (portal_type (getTargetBrain reference))
       (Title (getRuleset self)))
    reference chain.

End failures.

(** ** Reading an allow-list *)

(** A list of allowed types lets the type [k] through when it is empty or
    holds [k]. *)
Definition allows (l : list string) (k : string) : Prop :=
  l = [] ∨ k ∈ l.

#[export] Instance allows_dec (l : list string) (k : string) : Decision (allows l k).
Proof. unfold allows. apply _. Defined.

(** ** Concrete objects for the examples *)

(** A brain aggregate, cut down to an identifier and the portal type. *)
Record Brain : Type := mkBrain {
  UID : string;
  brain_portal_type : string
}.

#[export] Instance Brain_PortalTyped : PortalTyped Brain := brain_portal_type.

(** Modelled from the spec: [utils.getPortalTypesByInterfaces] is not among
    the sources.  Section 6 describes it: given a list of capability
    identifiers, the list of the concrete kinds whose instances provide at
    least one of them.  The registry pairs each kind with its interfaces. *)
Definition getPortalTypesByInterfaces_in
    (registry : list (string * list string)) : PortalTypesByInterfaces :=
  λ _ allowed,
    List.map fst
      (List.filter (λ entry, existsb (λ i, py_in i allowed) (snd entry))
         registry).

(** A catalog for the examples, over a list of indexed brains: a
    [portal_type] constraint keeps the brains of the listed types, an empty
    mapping matches every brain, and a hit is its own aggregate. *)
Definition Catalog_of (R : Type) (indexed : list Brain) : Catalog R Brain Brain := {|
  uid_catalog := λ _ terms,
    match terms !! "portal_type" with
    | Some kinds => List.filter (λ b, py_in (portal_type b) kinds) indexed
    | None => indexed
    end;
  makeBrainAggregate := λ _ o, o
|}.

Module Examples.

Definition relates : Ruleset := mkRuleset "Relates to".

Definition item0 : Brain := mkBrain "uid-0" "Document".
Definition item1 : Brain := mkBrain "uid-1" "Image".
Definition item2 : Brain := mkBrain "uid-2" "Document".
Definition folder : Brain := mkBrain "uid-3" "Folder".

(** Allowed source kinds [[]], allowed target kinds [["Document"]]. *)
Definition documents_only : PortalTypeConstraint :=
  mkPortalTypeConstraint [] ["Document"] relates.

(** Documents may point to images. *)
Definition document_to_image : PortalTypeConstraint :=
  mkPortalTypeConstraint ["Document"] ["Image"] relates.

(** Nothing configured. *)
Definition unrestricted : PortalTypeConstraint :=
  mkPortalTypeConstraint [] [] relates.

(** The kinds of a small site and the interfaces they provide. *)
Definition registry : list (string * list string) :=
  [("Document", ["IDocument"; "IReferenceable"]);
   ("Image", ["IImage"; "IReferenceable"]);
   ("Folder", ["IFolder"])].

Definition site_lookup : PortalTypesByInterfaces :=
  getPortalTypesByInterfaces_in registry.

(** No kind of the site provides [IFoo]. *)
Definition foo_sources : InterfaceConstraint :=
  mkInterfaceConstraint ["IFoo"] [] relates.

Definition foo_targets : InterfaceConstraint :=
  mkInterfaceConstraint [] ["IFoo"] relates.

Definition referenceable_targets : InterfaceConstraint :=
  mkInterfaceConstraint [] ["IReferenceable"] relates.

Definition no_interfaces : InterfaceConstraint :=
  mkInterfaceConstraint [] [] relates.

(** A type rule and an interface rule that resolve to the same list of
    allowed source types. *)
Definition document_sources : PortalTypeConstraint :=
  mkPortalTypeConstraint ["Document"; "spam"] [] relates.

Definition idocument_sources : InterfaceConstraint :=
  mkInterfaceConstraint ["IDocument"] [] relates.

Definition image_to_document : Reference Brain := mkReference item1 item0.
Definition document_to_document : Reference Brain := mkReference item0 item2.
Definition document_to_image_ref : Reference Brain := mkReference item0 item1.
Definition image_to_folder : Reference Brain := mkReference item1 folder.

Definition site_catalog (R : Type) : Catalog R Brain Brain :=
  Catalog_of R [item0; item1; item2; folder].

(** A brain whose portal type is the appended ['spam']. *)
Definition tin : Brain := mkBrain "uid-4" "spam".
Definition tin_to_tin : Reference Brain := mkReference tin tin.
Definition document_to_folder : Reference Brain := mkReference item0 folder.

(** The same allowed types as [document_to_image], listed twice over. *)
Definition document_to_image_again : PortalTypeConstraint :=
  mkPortalTypeConstraint ["Document"; "Document"] ["Image"; "Image"] relates.

(** Only images may be pointed to. *)
Definition images_only : PortalTypeConstraint :=
  mkPortalTypeConstraint [] ["Image"] relates.

(** Referenceable sources, folders as targets. *)
Definition referenceable_to_folder : InterfaceConstraint :=
  mkInterfaceConstraint ["IReferenceable"] ["IFolder"] relates.

End Examples.

(** ** The vocabulary of the two schema fields *)

(** [utils.getReferenceableTypes(context)], whose module is not among the
    sources, and the [DisplayList] of Archetypes, built from a list of
    (key, label) pairs: both are taken as they come. *)
Class ReferenceableTypes (R : Type) := getReferenceableTypes : R → list string.

Class DisplayLists (D : Type) := DisplayList : list (string * string) → D.

Definition _allowedTypesVocabulary {R D : Type}
    `{!ReferenceableTypes R} `{!DisplayLists D} (self : R) : D :=
  DisplayList (List.map (λ pt, (pt, pt)) (getReferenceableTypes self)).

(** ** The Python tests, read as propositions *)

Lemma truthy_true {A : Type} (l : list A) : truthy l = true ↔ l ≠ [].
Proof. destruct l; simpl; split; intros; congruence. Qed.

Lemma truthy_false {A : Type} (l : list A) : truthy l = false ↔ l = [].
Proof. destruct l; simpl; split; intros; congruence. Qed.

Lemma py_in_true (x : string) (l : list string) : py_in x l = true ↔ x ∈ l.
Proof.
  induction l as [|y l IH]; simpl.
  - split; [discriminate | intros Hx; inversion Hx].
  - destruct (String.eqb_spec y x) as [->|Hne].
    + split; [intros _; left | done].
    + rewrite IH. split; [by right|].
      intros Hx. apply elem_of_cons in Hx as [->|Hx]; [done | exact Hx].
Qed.

Lemma py_in_false (x : string) (l : list string) : py_in x l = false ↔ x ∉ l.
Proof.
  rewrite <- py_in_true. destruct (py_in x l); split; intros; congruence.
Qed.

Lemma py_not_in_true (x : string) (l : list string) :
  py_not_in x l = true ↔ x ∉ l.
Proof. unfold py_not_in. rewrite negb_true_iff. apply py_in_false. Qed.

Lemma py_not_in_false (x : string) (l : list string) :
  py_not_in x l = false ↔ x ∈ l.
Proof. unfold py_not_in. rewrite negb_false_iff. apply py_in_true. Qed.

(** The test of the list comprehension and of both validator branches. *)
Lemma allows_test (l : list string) (k : string) :
  negb (truthy l) || py_in k l = true ↔ allows l k.
Proof.
  unfold allows. rewrite orb_true_iff, negb_true_iff, truthy_false, py_in_true.
  done.
Qed.

Lemma not_allows (l : list string) (k : string) :
  ¬ allows l k ↔ l ≠ [] ∧ k ∉ l.
Proof.
  unfold allows. split.
  - intros Hno. split; intros Hyes; apply Hno; [by left | by right].
  - intros [Hne Hout] [Hnil | Hin]; [by apply Hne | by apply Hout].
Qed.

(** The guard in front of [makeVocabulary] and of the source check. *)
Lemma guard_test (l : list string) (k : string) :
  truthy l && py_not_in k l = false ↔ allows l k.
Proof.
  unfold allows. rewrite andb_false_iff, truthy_false, py_not_in_false. done.
Qed.

Lemma guard_test_true (l : list string) (k : string) :
  truthy l && py_not_in k l = true ↔ l ≠ [] ∧ k ∉ l.
Proof. by rewrite andb_true_iff, truthy_true, py_not_in_true. Qed.

(** ** The validators *)

Section validators.
Context {R : Type} `{!Constraint R}.
Context {B Chain : Type} `{!PortalTyped B}.

Implicit Types (self : R) (reference : Reference B) (chain : Chain).

(** [validateConnected] by cases: the source check first, then the target
    check, then the return. *)
Lemma validateConnected_cases self reference chain :
  validateConnected self reference chain =
    if decide (allows (getAllowedSourceTypes self)
                 (portal_type (getSourceBrain reference)))
    then if decide (allows (getAllowedTargetTypes self)
                      (portal_type (getTargetBrain reference)))
         then Returned tt
         else Raised (target_failure self reference chain)
    else Raised (source_failure self reference chain).
Proof.
  unfold validateConnected, source_failure, target_failure, raise, pass.
  set (ast := getAllowedSourceTypes self).
  set (att := getAllowedTargetTypes self).
  set (st := portal_type (getSourceBrain reference)).
  set (tt' := portal_type (getTargetBrain reference)).
  destruct (decide (allows ast st)) as [Hs | Hs].
  - assert (Hgs : truthy ast && py_not_in st ast = false) by by apply guard_test.
    destruct (truthy ast); simpl in Hgs; [rewrite Hgs|]; simpl.
    all: destruct (decide (allows att tt')) as [Ht | Ht].
    all: try (assert (Hgt : truthy att && py_not_in tt' att = false)
                by (by apply guard_test);
              destruct (truthy att); simpl in Hgt; [rewrite Hgt|]; done).
    all: apply not_allows, guard_test_true in Ht;
      apply andb_true_iff in Ht as [-> ->]; done.
  - apply not_allows, guard_test_true in Hs.
    apply andb_true_iff in Hs as [-> ->]. done.
Qed.

(** C2: when the allowed source types are a non-empty list without the
    source's portal type, [validateConnected] raises the source-side
    [ValidationException], whatever the target side is: its message is
    ["Source type <st> not allowed for '<title>'."] with the offending type
    and the ruleset's title, and it carries the reference and the chain it
    was called with. *)
Theorem validateConnected_source_disallowed self reference chain :
  getAllowedSourceTypes self ≠ [] →
  portal_type (getSourceBrain reference) ∉ getAllowedSourceTypes self →
  validateConnected self reference chain =
    Raised (mkValidationException
              ("Source type " +:+ portal_type (getSourceBrain reference)
                 +:+ " not allowed for '" +:+ Title (getRuleset self) +:+ "'.")
              reference chain).
Proof.
  intros Hne Hout. rewrite validateConnected_cases.
  destruct (decide _) as [Hs | _]; [|reflexivity].
  apply not_allows in Hs; [contradiction | done].
Qed.

(** C4: with both resolved allow-lists empty, [validateConnected] returns
    for every reference and every chain; for a [PortalTypeConstraint] the
    resolved lists are the configured ones. *)
Theorem validateConnected_unrestricted self reference chain :
  getAllowedSourceTypes self = [] →
  getAllowedTargetTypes self = [] →
  validateConnected self reference chain = Returned tt.
Proof.
  intros Hs Ht. unfold validateConnected. rewrite Hs, Ht. reflexivity.
Qed.

(** C5: when the source's portal type is in the allowed source types and
    the target's portal type is in the allowed target types (both lists are
    then non-empty), [validateConnected] returns without raising. *)
Theorem validateConnected_both_allowed self reference chain :
  getAllowedSourceTypes self ≠ [] →
  getAllowedTargetTypes self ≠ [] →
  portal_type (getSourceBrain reference) ∈ getAllowedSourceTypes self →
  portal_type (getTargetBrain reference) ∈ getAllowedTargetTypes self →
  validateConnected self reference chain = Returned tt.
Proof.
  intros _ _ Hs Ht. rewrite validateConnected_cases.
  destruct (decide _) as [_ | Hno]; [|by destruct Hno; right].
  destruct (decide _) as [_ | Hno]; [done | by destruct Hno; right].
Qed.

(** C8: [validateDisconnected] returns for every rule, every reference and
    every chain. *)
Theorem validateDisconnected_returns self reference chain :
  validateDisconnected self reference chain = Returned tt.
Proof. reflexivity. Qed.

End validators.

(** ** The vocabulary *)

(** A comprehension [[t for t in l if f(t)]] keeps a sublist, in order. *)
Lemma comprehension_sublist {A : Type} (f : A → bool) (l : list A) :
  List.filter f l `sublist_of` l.
Proof.
  induction l as [|a l IH]; simpl; [constructor|].
  destruct (f a); [by apply sublist_skip | by apply sublist_cons].
Qed.

(** It is the filter by the proposition its test decides. *)
Lemma comprehension_filter {A : Type} (f : A → bool) (P : A → Prop)
    `{!∀ a, Decision (P a)} (l : list A) :
  (∀ a, f a = true ↔ P a) →
  List.filter f l = filter P l.
Proof.
  intros Hf. induction l as [|a l IH]; [done|].
  simpl. rewrite IH. specialize (Hf a).
  destruct (f a) eqn:Hfa.
  - rewrite filter_cons_True; [done | by apply Hf].
  - rewrite filter_cons_False; [done|].
    intros HP. apply Hf in HP. congruence.
Qed.

Lemma comprehension_all {A : Type} (f : A → bool) (l : list A) :
  (∀ a, f a = true) → List.filter f l = l.
Proof.
  intros Hf. induction l as [|a l IH]; [done|].
  simpl. by rewrite Hf, IH.
Qed.

Lemma comprehension_twice {A : Type} (f : A → bool) (l : list A) :
  List.filter f (List.filter f l) = List.filter f l.
Proof.
  induction l as [|a l IH]; [done|].
  simpl. destruct (f a) eqn:Hfa; [|done].
  simpl. by rewrite Hfa, IH.
Qed.

Lemma filter_every {A : Type} (P : A → Prop) `{!∀ a, Decision (P a)}
    (l : list A) :
  (∀ a, P a) → filter P l = l.
Proof.
  intros HP. induction l as [|a l IH]; [done|].
  rewrite filter_cons_True by apply HP. by rewrite IH.
Qed.

Lemma filter_none {A : Type} (P : A → Prop) `{!∀ a, Decision (P a)}
    (l : list A) :
  Forall (λ a, ¬ P a) l → filter P l = [].
Proof.
  induction 1 as [|a l Ha _ IH]; [done|].
  by rewrite filter_cons_False.
Qed.

Section vocabulary.
Context {R : Type} `{!Constraint R}.
Context {S Hit Item : Type}.
Context `{!PortalTyped S} `{!PortalTyped Item} `{!Catalog R Hit Item}.

Implicit Types (self : R) (source : S) (targets : list Item).

(** [makeVocabulary] by cases. *)
Lemma makeVocabulary_cases self source (targets : option (list Item)) :
  makeVocabulary self source targets =
    if decide (allows (getAllowedSourceTypes self) (portal_type source))
    then match targets with
         | Some targets =>
             filter (λ t, allows (getAllowedTargetTypes self) (portal_type t))
               targets
         | None =>
             makeBrainAggregate self <$> uid_catalog self (getSearchTerms self)
         end
    else [].
Proof.
  unfold makeVocabulary.
  destruct (decide _) as [Hs | Hs].
  - apply guard_test in Hs. rewrite Hs.
    destruct targets as [targets|]; [|done].
    apply comprehension_filter. intros t. apply allows_test.
  - apply not_allows, guard_test_true in Hs. by rewrite Hs.
Qed.

(** C7: when the allowed source types are a non-empty list without the
    source's portal type, [makeVocabulary] returns the empty list, whatever
    [targets] is and also when it is not given. *)
Theorem makeVocabulary_source_disallowed self source
    (targets : option (list Item)) :
  getAllowedSourceTypes self ≠ [] →
  portal_type source ∉ getAllowedSourceTypes self →
  makeVocabulary self source targets = [].
Proof.
  intros Hne Hout. unfold makeVocabulary.
  assert (Hg : truthy (getAllowedSourceTypes self)
               && py_not_in (portal_type source) (getAllowedSourceTypes self)
               = true) by by apply guard_test_true.
  by rewrite Hg.
Qed.

(** C10: filtering is idempotent: the vocabulary of a vocabulary is that
    vocabulary, for every source (admitted or not) and every [targets]. *)
Theorem makeVocabulary_idempotent self source targets :
  makeVocabulary self source
      (Some (makeVocabulary self source (Some targets))) =
    makeVocabulary self source (Some targets).
Proof.
  unfold makeVocabulary.
  destruct (truthy (getAllowedSourceTypes self)
            && py_not_in (portal_type source) (getAllowedSourceTypes self));
    [done|].
  apply comprehension_twice.
Qed.

End vocabulary.

(** C6: for a source that the source-side check lets through,
    [makeVocabulary source targets] is a sublist of [targets] (so the order
    is kept), made of exactly the targets whose portal type is in the allowed
    target types, and it is [targets] itself when that list is empty.  With
    allowed source types [[]] and allowed target types [["Document"]], the
    candidates Document, Image, Document give the first and the third. *)
Theorem makeVocabulary_filters_targets
    {R : Type} `{!Constraint R} {S Hit Item : Type}
    `{!PortalTyped S} `{!PortalTyped Item} `{!Catalog R Hit Item}
    (self : R) (source : S) (targets : list Item) :
  allows (getAllowedSourceTypes self) (portal_type source) →
  makeVocabulary self source (Some targets) `sublist_of` targets
  ∧ (getAllowedTargetTypes self ≠ [] →
     makeVocabulary self source (Some targets) =
       filter (λ t, portal_type t ∈ getAllowedTargetTypes self) targets)
  ∧ (getAllowedTargetTypes self = [] →
     makeVocabulary self source (Some targets) = targets)
  ∧ (∀ t, t ∈ makeVocabulary self source (Some targets) ↔
          t ∈ targets ∧ allows (getAllowedTargetTypes self) (portal_type t))
  ∧ (∀ (cat : Catalog PortalTypeConstraint Hit Brain),
       makeVocabulary Examples.documents_only source
         (Some [Examples.item0; Examples.item1; Examples.item2]) =
         [Examples.item0; Examples.item2]).
Proof.
  intros Hs. rewrite makeVocabulary_cases.
  destruct (decide _) as [_ | Hno]; [|contradiction].
  split; [apply sublist_filter|].
  split.
  { intros Hne. apply list_filter_iff. intros t. unfold allows.
    split; [intros [Hnil | Hin]; [contradiction | exact Hin] | by right]. }
  split.
  { intros Hnil. apply filter_every. intros t. by left. }
  split; [|intros cat; reflexivity].
  intros t. rewrite list_elem_of_filter. apply and_comm.
Qed.

(** ** The interface rule *)

Section interfaces.
Context {lookup : PortalTypesByInterfaces}.

Implicit Types (self : InterfaceConstraint).

Lemma InterfaceConstraint_source_types self :
  getAllowedSourceTypes self =
    match allowedSourceInterfaces self with
    | [] => []
    | _ :: _ =>
        getPortalTypesByInterfaces self (allowedSourceInterfaces self) ++ ["spam"]
    end.
Proof.
  simpl. unfold InterfaceConstraint_getAllowedSourceTypes.
  by destruct (allowedSourceInterfaces self).
Qed.

Lemma InterfaceConstraint_target_types self :
  getAllowedTargetTypes self =
    match allowedTargetInterfaces self with
    | [] => []
    | _ :: _ =>
        getPortalTypesByInterfaces self (allowedTargetInterfaces self) ++ ["spam"]
    end.
Proof.
  simpl. unfold InterfaceConstraint_getAllowedTargetTypes.
  by destruct (allowedTargetInterfaces self).
Qed.

(** C9: for an [InterfaceConstraint] with a non-empty list of allowed
    target interfaces, the mapping built by the inherited [getSearchTerms]
    has the key [portal_type]; its value is the list of the resolved portal
    types followed by ['spam'], and the search path of [makeVocabulary]
    (no [targets] given, source let through) calls the UID catalog with
    exactly that mapping. *)
Theorem getSearchTerms_interface_sentinel
    {S Hit Item : Type} `{!PortalTyped S} `{!PortalTyped Item}
    `{!Catalog InterfaceConstraint Hit Item} self (source : S) :
  allowedTargetInterfaces self ≠ [] →
  getSearchTerms self =
    {[ "portal_type" :=
         getPortalTypesByInterfaces self (allowedTargetInterfaces self)
           ++ ["spam"] ]}
  ∧ (∃ kinds, getSearchTerms self !! "portal_type" = Some kinds
       ∧ "spam" ∈ kinds
       ∧ ∀ k, k ∈ getPortalTypesByInterfaces self (allowedTargetInterfaces self)
              → k ∈ kinds)
  ∧ (allows (getAllowedSourceTypes self) (portal_type source) →
     makeVocabulary self source None =
       makeBrainAggregate self
         <$> uid_catalog self
               {[ "portal_type" :=
                    getPortalTypesByInterfaces self (allowedTargetInterfaces self)
                      ++ ["spam"] ]}).
Proof.
  intros Hne.
  assert (Hterms : getSearchTerms self =
            {[ "portal_type" :=
                 getPortalTypesByInterfaces self (allowedTargetInterfaces self)
                   ++ ["spam"] ]}).
  { unfold getSearchTerms. rewrite InterfaceConstraint_target_types.
    destruct (allowedTargetInterfaces self) as [|i ati]; [done|].
    destruct (getPortalTypesByInterfaces self (i :: ati)); reflexivity. }
  split; [exact Hterms|].
  split.
  - eexists. split; [by rewrite Hterms, lookup_singleton_eq|].
    split; [apply elem_of_app; right; by apply list_elem_of_singleton|].
    intros k Hk. apply elem_of_app. by left.
  - intros Hs. rewrite makeVocabulary_cases, Hterms.
    destruct (decide _) as [_ | Hno]; [reflexivity | contradiction].
Qed.

End interfaces.

Section sentinel.
Context {lookup : PortalTypesByInterfaces}.
Context {S Hit Item B Chain : Type}.
Context `{!PortalTyped S} `{!PortalTyped Item} `{!PortalTyped B}.
Context `{!Catalog InterfaceConstraint Hit Item}.

Implicit Types (self : InterfaceConstraint) (source : S).
Implicit Types (reference : Reference B) (chain : Chain).

(** A type is let through by [[spam]] only when it is ['spam']. *)
Lemma allows_spam_only (k : string) : allows ["spam"] k → k = "spam".
Proof.
  intros [Hnil | Hin]; [discriminate|].
  by apply list_elem_of_singleton in Hin.
Qed.

(** C1: each accessor of an [InterfaceConstraint] returns the empty list
    for an empty list of interfaces, and otherwise the portal types that the
    lookup finds for the interfaces, followed by ['spam'].  So a non-empty
    list of interfaces that no portal type provides resolves to [['spam']],
    and every candidate of another portal type is turned down: on the source
    side the vocabulary is empty and [validateConnected] raises the
    source-side failure; on the target side the filtered vocabulary is empty
    and [validateConnected] raises.  An empty list of interfaces lets every
    portal type through. *)
Theorem InterfaceConstraint_sentinel self :
  (getAllowedSourceTypes self =
     match allowedSourceInterfaces self with
     | [] => []
     | _ :: _ =>
         getPortalTypesByInterfaces self (allowedSourceInterfaces self)
           ++ ["spam"]
     end)
  ∧ (getAllowedTargetTypes self =
       match allowedTargetInterfaces self with
       | [] => []
       | _ :: _ =>
           getPortalTypesByInterfaces self (allowedTargetInterfaces self)
             ++ ["spam"]
       end)
  ∧ (allowedSourceInterfaces self ≠ [] →
     getPortalTypesByInterfaces self (allowedSourceInterfaces self) = [] →
     getAllowedSourceTypes self = ["spam"]
     ∧ (∀ source (targets : option (list Item)),
          portal_type source ≠ "spam" →
          makeVocabulary self source targets = [])
     ∧ (∀ reference chain,
          portal_type (getSourceBrain reference) ≠ "spam" →
          validateConnected self reference chain =
            Raised (source_failure self reference chain)))
  ∧ (allowedTargetInterfaces self ≠ [] →
     getPortalTypesByInterfaces self (allowedTargetInterfaces self) = [] →
     getAllowedTargetTypes self = ["spam"]
     ∧ (∀ source (targets : list Item),
          Forall (λ t, portal_type t ≠ "spam") targets →
          makeVocabulary self source (Some targets) = [])
     ∧ (∀ reference chain,
          portal_type (getTargetBrain reference) ≠ "spam" →
          validateConnected self reference chain =
            if decide (allows (getAllowedSourceTypes self)
                         (portal_type (getSourceBrain reference)))
            then Raised (target_failure self reference chain)
            else Raised (source_failure self reference chain)))
  ∧ (allowedSourceInterfaces self = [] →
     getAllowedSourceTypes self = []
     ∧ ∀ k, allows (getAllowedSourceTypes self) k)
  ∧ (allowedTargetInterfaces self = [] →
     getAllowedTargetTypes self = []
     ∧ ∀ k, allows (getAllowedTargetTypes self) k)
  ∧ (allowedSourceInterfaces self = [] →
     allowedTargetInterfaces self = [] →
     (∀ source (targets : list Item),
        makeVocabulary self source (Some targets) = targets)
     ∧ (∀ reference chain,
          validateConnected self reference chain = Returned tt)).
Proof.
  split; [apply InterfaceConstraint_source_types|].
  split; [apply InterfaceConstraint_target_types|].
  split; [|split; [|split; [|split]]].
  - intros Hne Hnone.
    assert (Hast : getAllowedSourceTypes self = ["spam"]).
    { rewrite InterfaceConstraint_source_types, Hnone.
      by destruct (allowedSourceInterfaces self). }
    split; [exact Hast|]. split.
    + intros source targets Hreal. rewrite makeVocabulary_cases, Hast.
      destruct (decide _) as [Hs | _]; [|done].
      by apply allows_spam_only in Hs.
    + intros reference chain Hreal.
      rewrite validateConnected_cases, Hast.
      destruct (decide _) as [Hs | _]; [|done].
      by apply allows_spam_only in Hs.
  - intros Hne Hnone.
    assert (Hatt : getAllowedTargetTypes self = ["spam"]).
    { rewrite InterfaceConstraint_target_types, Hnone.
      by destruct (allowedTargetInterfaces self). }
    split; [exact Hatt|]. split.
    + intros source targets Hreal. rewrite makeVocabulary_cases, Hatt.
      destruct (decide _) as [_ | _]; [|done].
      apply filter_none. eapply Forall_impl; [exact Hreal|].
      intros t Ht Hallowed. by apply allows_spam_only in Hallowed.
    + intros reference chain Hreal.
      rewrite validateConnected_cases, Hatt.
      destruct (decide _) as [_ | _]; [|done].
      destruct (decide _) as [Ht | _]; [|done].
      by apply allows_spam_only in Ht.
  - intros Hnil.
    assert (Hast : getAllowedSourceTypes self = [])
      by by rewrite InterfaceConstraint_source_types, Hnil.
    split; [exact Hast|]. intros k. rewrite Hast. by left.
  - intros Hnil.
    assert (Hatt : getAllowedTargetTypes self = [])
      by by rewrite InterfaceConstraint_target_types, Hnil.
    split; [exact Hatt|]. intros k. rewrite Hatt. by left.
  - intros Hs Ht.
    assert (Hast : getAllowedSourceTypes self = [])
      by by rewrite InterfaceConstraint_source_types, Hs.
    assert (Hatt : getAllowedTargetTypes self = [])
      by by rewrite InterfaceConstraint_target_types, Ht.
    split.
    + intros source targets. rewrite makeVocabulary_cases, Hast, Hatt.
      destruct (decide _) as [_ | Hno]; [|by destruct Hno; left].
      apply filter_every. intros t. by left.
    + intros reference chain. rewrite validateConnected_cases, Hast, Hatt.
      destruct (decide _) as [_ | Hno]; [|by destruct Hno; left].
      destruct (decide _) as [_ | Hno]; [done | by destruct Hno; left].
Qed.

End sentinel.

(** ** The failures that the module raises *)

(** The two messages never coincide: one starts with [S], the other with
    [T]. *)
Lemma source_message_not_target_message (st tt title title' : string) :
  source_message st title ≠ target_message tt title'.
Proof. unfold source_message, target_message. simpl. discriminate. Qed.

(** C3, as the code has it: both rule classes raise one kind of failure,
    [ValidationException].  [validateConnected] returns, or raises it with
    the source message, the reference and the chain when the source type is
    turned down, or raises it with the target message when the source type
    is let through and the target type is turned down; the two differ by
    their message only; a [PortalTypeConstraint] configured with the lists
    that another rule resolves to, in a ruleset of the same title, has the
    same outcome; and [validateDisconnected] raises nothing. *)
Theorem validation_failures_one_kind
    {R : Type} `{!Constraint R} {B Chain : Type} `{!PortalTyped B}
    (self : R) (ref : Reference B) (ch : Chain) :
  (validateConnected self ref ch = Returned tt
   ∨ validateConnected self ref ch = Raised (source_failure self ref ch)
   ∨ validateConnected self ref ch = Raised (target_failure self ref ch))
  ∧ (∀ e, validateConnected self ref ch = Raised e →
       reference e = ref ∧ chain e = ch
       ∧ (message e = source_message (portal_type (getSourceBrain ref))
                        (Title (getRuleset self))
          ∧ ¬ allows (getAllowedSourceTypes self)
                (portal_type (getSourceBrain ref))
          ∨ message e = target_message (portal_type (getTargetBrain ref))
                          (Title (getRuleset self))
            ∧ allows (getAllowedSourceTypes self)
                (portal_type (getSourceBrain ref))
            ∧ ¬ allows (getAllowedTargetTypes self)
                  (portal_type (getTargetBrain ref))))
  ∧ source_failure self ref ch ≠ target_failure self ref ch
  ∧ (∀ p : PortalTypeConstraint,
       allowedSourceTypes p = getAllowedSourceTypes self →
       allowedTargetTypes p = getAllowedTargetTypes self →
       Title (ptc_ruleset p) = Title (getRuleset self) →
       validateConnected p ref ch = validateConnected self ref ch)
  ∧ validateDisconnected self ref ch = Returned tt.
Proof.
  split; [|split; [|split; [|split]]].
  - rewrite validateConnected_cases.
    repeat destruct (decide _); auto.
  - intros e. rewrite validateConnected_cases.
    destruct (decide _) as [Hs | Hs]; [destruct (decide _) as [Ht | Ht]|].
    + discriminate.
    + intros [= <-]. unfold target_failure. simpl.
      split; [done|]. split; [done|]. by right.
    + intros [= <-]. unfold source_failure. simpl.
      split; [done|]. split; [done|]. by left.
  - intros Heq. apply (f_equal message) in Heq.
    by apply source_message_not_target_message in Heq.
  - intros p Hs Ht Htitle. rewrite !validateConnected_cases.
    unfold source_failure, target_failure. simpl. by rewrite Hs, Ht, Htitle.
  - reflexivity.
Qed.

(** ** The theorems at work on the example site *)

Section examples.
#[local] Existing Instance Examples.site_lookup.
#[local] Existing Instance Examples.site_catalog.

Import Examples.

(** An image may not start a relation of [document_to_image]; the folder at
    the other end would be turned down too, and is not looked at. *)
Lemma validateConnected_source_disallowed_example :
  getAllowedSourceTypes document_to_image ≠ []
  ∧ (portal_type (getSourceBrain image_to_folder)
       ∉ getAllowedSourceTypes document_to_image)
  ∧ (portal_type (getTargetBrain image_to_folder)
       ∉ getAllowedTargetTypes document_to_image)
  ∧ validateConnected document_to_image image_to_folder tt =
      Raised (mkValidationException
                "Source type Image not allowed for 'Relates to'."
                image_to_folder tt).
Proof.
  assert (Hne : getAllowedSourceTypes document_to_image ≠ []) by discriminate.
  assert (Hout : portal_type (getSourceBrain image_to_folder)
                   ∉ getAllowedSourceTypes document_to_image)
    by (apply py_in_false; reflexivity).
  split; [exact Hne|]. split; [exact Hout|].
  split; [apply py_in_false; reflexivity|].
  exact (validateConnected_source_disallowed
           document_to_image image_to_folder tt Hne Hout).
Defined.

Lemma validateConnected_unrestricted_example :
  getAllowedSourceTypes unrestricted = []
  ∧ getAllowedTargetTypes unrestricted = []
  ∧ validateConnected unrestricted image_to_folder tt
      = (Returned tt : outcome (ValidationException Brain unit) unit).
Proof.
  split; [reflexivity|]. split; [reflexivity|].
  exact (validateConnected_unrestricted unrestricted image_to_folder tt
           eq_refl eq_refl).
Defined.

Lemma validateConnected_both_allowed_example :
  (portal_type (getSourceBrain document_to_image_ref)
     ∈ getAllowedSourceTypes document_to_image)
  ∧ (portal_type (getTargetBrain document_to_image_ref)
       ∈ getAllowedTargetTypes document_to_image)
  ∧ validateConnected document_to_image document_to_image_ref tt
      = (Returned tt : outcome (ValidationException Brain unit) unit).
Proof.
  assert (Hs : portal_type (getSourceBrain document_to_image_ref)
                 ∈ getAllowedSourceTypes document_to_image)
    by (apply py_in_true; reflexivity).
  assert (Ht : portal_type (getTargetBrain document_to_image_ref)
                 ∈ getAllowedTargetTypes document_to_image)
    by (apply py_in_true; reflexivity).
  split; [exact Hs|]. split; [exact Ht|].
  apply (validateConnected_both_allowed document_to_image
           document_to_image_ref tt); [discriminate | discriminate | exact Hs | exact Ht].
Defined.

Lemma makeVocabulary_source_disallowed_example :
  getAllowedSourceTypes document_to_image ≠ []
  ∧ (portal_type item1 ∉ getAllowedSourceTypes document_to_image)
  ∧ makeVocabulary document_to_image item1 (Some [item0; item1; item2]) = []
  ∧ makeVocabulary document_to_image item1 None = [].
Proof.
  assert (Hne : getAllowedSourceTypes document_to_image ≠ []) by discriminate.
  assert (Hout : portal_type item1 ∉ getAllowedSourceTypes document_to_image)
    by (apply py_in_false; reflexivity).
  split; [exact Hne|]. split; [exact Hout|].
  split; apply (makeVocabulary_source_disallowed document_to_image item1);
    assumption.
Defined.

Lemma makeVocabulary_filters_targets_example :
  allows (getAllowedSourceTypes documents_only) (portal_type folder)
  ∧ makeVocabulary documents_only folder (Some [item0; item1; item2])
      = [item0; item2]
  ∧ [item0; item2] `sublist_of` [item0; item1; item2].
Proof.
  assert (Hs : allows (getAllowedSourceTypes documents_only)
                 (portal_type folder)) by (left; reflexivity).
  split; [exact Hs|].
  destruct (makeVocabulary_filters_targets documents_only folder
              [item0; item1; item2] Hs) as (Hsub & _ & _ & _ & Hscenario).
  split; [apply Hscenario | exact Hsub].
Defined.

(** No portal type of the site provides [IFoo]: as allowed source
    interfaces it turns every source down, as allowed target interfaces
    every target, and without interfaces nothing is turned down. *)
Lemma InterfaceConstraint_sentinel_example :
  (allowedSourceInterfaces foo_sources ≠ []
   ∧ getPortalTypesByInterfaces foo_sources
       (allowedSourceInterfaces foo_sources) = []
   ∧ getAllowedSourceTypes foo_sources = ["spam"]
   ∧ makeVocabulary foo_sources item0 (Some [item0; item1; item2]) = []
   ∧ makeVocabulary foo_sources item0 None = []
   ∧ validateConnected foo_sources document_to_image_ref tt =
       Raised (mkValidationException
                 "Source type Document not allowed for 'Relates to'."
                 document_to_image_ref tt))
  ∧ (allowedTargetInterfaces foo_targets ≠ []
     ∧ getPortalTypesByInterfaces foo_targets
         (allowedTargetInterfaces foo_targets) = []
     ∧ getAllowedTargetTypes foo_targets = ["spam"]
     ∧ makeVocabulary foo_targets item0 (Some [item0; item1; item2]) = []
     ∧ validateConnected foo_targets document_to_image_ref tt =
         Raised (mkValidationException
                   "Target type Image not allowed for 'Relates to'."
                   document_to_image_ref tt))
  ∧ (allowedSourceInterfaces no_interfaces = []
     ∧ allowedTargetInterfaces no_interfaces = []
     ∧ makeVocabulary no_interfaces item0 (Some [item0; item1; item2])
         = [item0; item1; item2]
     ∧ validateConnected no_interfaces document_to_image_ref tt
         = (Returned tt : outcome (ValidationException Brain unit) unit)).
Proof.
  split; [|split].
  - destruct (InterfaceConstraint_sentinel (S := Brain) (Item := Brain)
                (B := Brain) (Chain := unit) foo_sources)
      as (_ & _ & Hsource & _).
    assert (Hne : allowedSourceInterfaces foo_sources ≠ []) by discriminate.
    destruct (Hsource Hne eq_refl) as (Hast & Hvoc & Hval).
    split; [exact Hne|]. split; [reflexivity|]. split; [exact Hast|].
    split; [apply Hvoc; discriminate|]. split; [apply Hvoc; discriminate|].
    apply (Hval document_to_image_ref tt). discriminate.
  - destruct (InterfaceConstraint_sentinel (S := Brain) (Item := Brain)
                (B := Brain) (Chain := unit) foo_targets)
      as (_ & _ & _ & Htarget & _).
    assert (Hne : allowedTargetInterfaces foo_targets ≠ []) by discriminate.
    destruct (Htarget Hne eq_refl) as (Hatt & Hvoc & Hval).
    split; [exact Hne|]. split; [reflexivity|]. split; [exact Hatt|].
    split.
    + apply Hvoc. repeat constructor; discriminate.
    + apply (Hval document_to_image_ref tt). discriminate.
  - destruct (InterfaceConstraint_sentinel (S := Brain) (Item := Brain)
                (B := Brain) (Chain := unit) no_interfaces)
      as (_ & _ & _ & _ & _ & _ & Hfree).
    destruct (Hfree eq_refl eq_refl) as (Hvoc & Hval).
    split; [reflexivity|]. split; [reflexivity|].
    split; [apply Hvoc | apply Hval].
Defined.

(** Every kind of the site that provides [IReferenceable] is searched for,
    and so is ['spam']. *)
Lemma getSearchTerms_interface_sentinel_example :
  allowedTargetInterfaces referenceable_targets ≠ []
  ∧ allows (getAllowedSourceTypes referenceable_targets) (portal_type folder)
  ∧ getSearchTerms referenceable_targets
      = {[ "portal_type" := ["Document"; "Image"; "spam"] ]}
  ∧ makeVocabulary referenceable_targets folder None
      = makeBrainAggregate referenceable_targets
          <$> uid_catalog referenceable_targets
                {[ "portal_type" := ["Document"; "Image"; "spam"] ]}.
Proof.
  assert (Hne : allowedTargetInterfaces referenceable_targets ≠ [])
    by discriminate.
  assert (Hs : allows (getAllowedSourceTypes referenceable_targets)
                 (portal_type folder)) by (left; reflexivity).
  destruct (getSearchTerms_interface_sentinel referenceable_targets folder Hne)
    as (Hterms & _ & Hvoc).
  split; [exact Hne|]. split; [exact Hs|].
  split; [exact Hterms | exact (Hvoc Hs)].
Defined.

(** The type rule [document_sources] is configured with the lists that the
    interface rule [idocument_sources] resolves to. *)
Lemma validation_failures_one_kind_example :
  allowedSourceTypes document_sources = getAllowedSourceTypes idocument_sources
  ∧ allowedTargetTypes document_sources
      = getAllowedTargetTypes idocument_sources
  ∧ Title (ptc_ruleset document_sources)
      = Title (getRuleset idocument_sources)
  ∧ validateConnected document_sources image_to_document tt
      = validateConnected idocument_sources image_to_document tt.
Proof.
  destruct (validation_failures_one_kind idocument_sources
              image_to_document tt) as (_ & _ & _ & Hsame & _).
  split; [reflexivity|]. split; [reflexivity|]. split; [reflexivity|].
  exact (Hsame document_sources eq_refl eq_refl eq_refl).
Defined.

(** C3, as it is stated, fails: the type rule [document_sources] and the
    interface rule [idocument_sources] raise the very same failure for a
    relation that starts at an image, and its message speaks of a source
    type for both. *)
Lemma failure_kind_shared_by_rule_types :
  ∃ e : ValidationException Brain unit,
    validateConnected document_sources image_to_document tt = Raised e
    ∧ validateConnected idocument_sources image_to_document tt = Raised e
    ∧ message e = "Source type Image not allowed for 'Relates to'.".
Proof.
  eexists. split; [reflexivity|]. split; reflexivity.
Qed.

End examples.

(** ** More on the validators *)

Section validators_more.
Context {R : Type} `{!Constraint R}.
Context {B Chain : Type} `{!PortalTyped B}.

Implicit Types (self : R) (reference : Reference B) (chain : Chain).

(** X1: when the source check lets the source through and the allowed
    target types are a non-empty list without the target's portal type,
    [validateConnected] raises the target-side [ValidationException]: the
    message ["Target type <tt> not allowed for '<title>'."], the reference
    and the chain. *)
Theorem validateConnected_target_disallowed self reference chain :
  allows (getAllowedSourceTypes self) (portal_type (getSourceBrain reference)) →
  getAllowedTargetTypes self ≠ [] →
  portal_type (getTargetBrain reference) ∉ getAllowedTargetTypes self →
  validateConnected self reference chain =
    Raised (mkValidationException
              ("Target type " +:+ portal_type (getTargetBrain reference)
                 +:+ " not allowed for '" +:+ Title (getRuleset self) +:+ "'.")
              reference chain).
Proof.
  intros Hs Hne Hout. rewrite validateConnected_cases.
  destruct (decide _) as [_ | Hno]; [|contradiction].
  destruct (decide _) as [Ht | _]; [|reflexivity].
  apply not_allows in Ht; [contradiction | done].
Qed.

(** X2: [validateConnected] returns exactly when each side is let through
    by its list (the list is empty or holds the portal type); the chain and
    everything else about the reference play no part. *)
Theorem validateConnected_returns_iff self reference chain :
  validateConnected self reference chain = Returned tt
  ↔ allows (getAllowedSourceTypes self) (portal_type (getSourceBrain reference))
    ∧ allows (getAllowedTargetTypes self)
        (portal_type (getTargetBrain reference)).
Proof.
  rewrite validateConnected_cases.
  destruct (decide _) as [Hs | Hs]; [destruct (decide _) as [Ht | Ht]|].
  - by split.
  - split; [discriminate | intros [_ Hyes]; contradiction].
  - split; [discriminate | intros [Hyes _]; contradiction].
Qed.

End validators_more.

(** Two lists with the same elements let the same types through. *)
Lemma allows_same_elements (l1 l2 : list string) (k : string) :
  (∀ x, x ∈ l1 ↔ x ∈ l2) → allows l1 k ↔ allows l2 k.
Proof.
  intros Hsame. unfold allows.
  assert (Hnil : l1 = [] ↔ l2 = []).
  { split; intros ->.
    - destruct l2 as [|y l2]; [done|].
      assert (Hy : y ∈ []) by (apply Hsame; left). inversion Hy.
    - destruct l1 as [|y l1]; [done|].
      assert (Hy : y ∈ []) by (apply Hsame; left). inversion Hy. }
  by rewrite Hnil, Hsame.
Qed.

(** ** More on the vocabulary *)

Lemma comprehension_swap {A : Type} (f g : A → bool) (l : list A) :
  List.filter f (List.filter g l) = List.filter g (List.filter f l).
Proof.
  induction l as [|a l IH]; [done|].
  simpl. destruct (g a) eqn:Hg, (f a) eqn:Hf; simpl; rewrite ?Hg, ?Hf, IH; done.
Qed.

Lemma comprehension_app {A : Type} (f : A → bool) (l1 l2 : list A) :
  List.filter f (l1 ++ l2) = List.filter f l1 ++ List.filter f l2.
Proof.
  induction l1 as [|a l1 IH]; [done|].
  simpl. destruct (f a); simpl; by rewrite IH.
Qed.

Lemma filter_fmap_exchange {A C : Type} (f : A → C)
    (P : A → Prop) (Q : C → Prop)
    `{!∀ a, Decision (P a)} `{!∀ c, Decision (Q c)} (l : list A) :
  (∀ a, P a ↔ Q (f a)) →
  f <$> filter P l = filter Q (f <$> l).
Proof.
  intros HPQ. induction l as [|a l IH]; [done|].
  rewrite fmap_cons. destruct (decide (P a)) as [HP | HP].
  - rewrite !filter_cons_True by (done || by apply HPQ).
    by rewrite fmap_cons, IH.
  - rewrite !filter_cons_False by (done || by rewrite <- HPQ).
    exact IH.
Qed.

(** X3: the vocabulary provider and the validator agree.  Among brains, a
    target is in [makeVocabulary source targets] exactly when it is one of
    [targets] and the reference from [source] to it passes
    [validateConnected]. *)
Theorem vocabulary_agrees_with_validation
    {R : Type} `{!Constraint R} {Hit B Chain : Type}
    `{!PortalTyped B} `{!Catalog R Hit B}
    (self : R) (source : B) (targets : list B) (chain : Chain) (t : B) :
  t ∈ makeVocabulary self source (Some targets)
  ↔ t ∈ targets
    ∧ validateConnected self (mkReference source t) chain = Returned tt.
Proof.
  rewrite validateConnected_returns_iff, makeVocabulary_cases. simpl.
  destruct (decide _) as [Hs | Hs].
  - rewrite list_elem_of_filter. split.
    + intros [Ht Hin]. done.
    + intros [Hin [_ Ht]]. done.
  - split; [intros Hin; inversion Hin | intros [_ [Hyes _]]; contradiction].
Qed.

(** X9: two filtering rules, of either class, commute: handing the
    vocabulary of one to the other as [targets] gives the same list in
    either order. *)
Theorem makeVocabulary_commutes
    {R1 R2 : Type} `{!Constraint R1} `{!Constraint R2}
    {S Hit1 Hit2 Item : Type} `{!PortalTyped S} `{!PortalTyped Item}
    `{!Catalog R1 Hit1 Item} `{!Catalog R2 Hit2 Item}
    (r1 : R1) (r2 : R2) (source : S) (targets : list Item) :
  makeVocabulary r2 source (Some (makeVocabulary r1 source (Some targets)))
  = makeVocabulary r1 source (Some (makeVocabulary r2 source (Some targets))).
Proof.
  unfold makeVocabulary.
  destruct (truthy (getAllowedSourceTypes r1)
            && py_not_in (portal_type source) (getAllowedSourceTypes r1));
  destruct (truthy (getAllowedSourceTypes r2)
            && py_not_in (portal_type source) (getAllowedSourceTypes r2));
    try done.
  apply comprehension_swap.
Qed.

(** X10: filtering goes through concatenation, and never lengthens the
    list of candidates. *)
Theorem makeVocabulary_app
    {R : Type} `{!Constraint R} {S Hit Item : Type}
    `{!PortalTyped S} `{!PortalTyped Item} `{!Catalog R Hit Item}
    (self : R) (source : S) (targets1 targets2 : list Item) :
  makeVocabulary self source (Some (targets1 ++ targets2))
  = makeVocabulary self source (Some targets1)
      ++ makeVocabulary self source (Some targets2)
  ∧ length (makeVocabulary self source (Some targets1)) ≤ length targets1.
Proof.
  split.
  - unfold makeVocabulary.
    destruct (truthy (getAllowedSourceTypes self)
              && py_not_in (portal_type source) (getAllowedSourceTypes self));
      [done|]. apply comprehension_app.
  - rewrite makeVocabulary_cases. destruct (decide _); [|simpl; lia].
    apply length_filter.
Qed.

(** ** More on the search *)

Section search.
Context {R : Type} `{!Constraint R}.

Implicit Types (self : R).

(** X4: the search terms of any rule are empty exactly when no target
    type is configured; otherwise they hold the one key [portal_type], bound
    to the allowed target types.  No other key is ever set, and a key is
    never bound to an empty list. *)
Theorem getSearchTerms_shape self :
  (getSearchTerms self = ∅ ↔ getAllowedTargetTypes self = [])
  ∧ (getAllowedTargetTypes self ≠ [] →
     getSearchTerms self = {[ "portal_type" := getAllowedTargetTypes self ]})
  ∧ (∀ key kinds, getSearchTerms self !! key = Some kinds →
       key = "portal_type" ∧ kinds = getAllowedTargetTypes self ∧ kinds ≠ []).
Proof.
  unfold getSearchTerms.
  destruct (getAllowedTargetTypes self) as [|k att] eqn:Hatt; simpl.
  - split; [done|]. split; [done|].
    intros key kinds Hlook. by rewrite lookup_empty in Hlook.
  - split.
    { split; [|discriminate]. intros Hempty.
      apply (f_equal (λ m : gmap string (list string), m !! "portal_type"))
        in Hempty.
      by rewrite lookup_insert_eq, lookup_empty in Hempty. }
    split; [done|].
    intros key kinds Hlook.
    destruct (decide (key = "portal_type")) as [-> | Hkey].
    + rewrite lookup_insert_eq in Hlook. injection Hlook as <-. done.
    + rewrite lookup_insert_ne, lookup_empty in Hlook by done. discriminate.
Qed.

(** X5: searching agrees with filtering.  Take a catalog that answers a
    [portal_type] constraint with those of its hits (the answer to the empty
    mapping) whose portal type is listed, and aggregates that keep the
    portal type of the hit.  Then [makeVocabulary] without [targets] is
    [makeVocabulary] with the aggregates of all hits as [targets]. *)
Theorem search_agrees_with_filter
    {S Hit Item : Type} `{!PortalTyped S} `{!PortalTyped Hit}
    `{!PortalTyped Item} `{!Catalog R Hit Item} self (source : S) :
  (∀ kinds, uid_catalog self {[ "portal_type" := kinds ]}
            = filter (λ h, portal_type h ∈ kinds) (uid_catalog self ∅)) →
  (∀ h, portal_type (makeBrainAggregate self h) = portal_type h) →
  makeVocabulary self source None
  = makeVocabulary self source
      (Some (makeBrainAggregate self <$> uid_catalog self ∅)).
Proof.
  intros Hcat Hagg. rewrite !makeVocabulary_cases.
  destruct (decide _) as [_ | _]; [|done].
  destruct (getSearchTerms_shape self) as (Hempty & Hone & _).
  destruct (decide (getAllowedTargetTypes self = [])) as [Hnil | Hne].
  - rewrite (proj2 Hempty Hnil), Hnil.
    symmetry. apply filter_every. intros t. by left.
  - rewrite (Hone Hne), Hcat.
    apply filter_fmap_exchange. intros h. rewrite Hagg. unfold allows.
    split; [by right | intros [Hnil | Hin]; [contradiction | exact Hin]].
Qed.

End search.

(** The example catalog answers as X5 asks. *)
Lemma Catalog_of_answers (R : Type) (indexed : list Brain) (self : R)
    (kinds : list string) :
  uid_catalog (Catalog := Catalog_of R indexed) self {[ "portal_type" := kinds ]}
  = filter (λ h, portal_type h ∈ kinds)
      (uid_catalog (Catalog := Catalog_of R indexed) self ∅).
Proof.
  simpl. rewrite lookup_singleton_eq, lookup_empty.
  apply comprehension_filter. intros b. apply py_in_true.
Qed.

(** ** More on the interface rule *)

Section interfaces_more.
Context {lookup : PortalTypesByInterfaces}.

Implicit Types (self : InterfaceConstraint).

(** X6: an [InterfaceConstraint] resolves a side to the empty list exactly
    when no interface is configured for it; a resolved list that is not
    empty ends in ['spam']. *)
Theorem InterfaceConstraint_restricted_iff (self : InterfaceConstraint) :
  (getAllowedSourceTypes self = [] ↔ allowedSourceInterfaces self = [])
  ∧ (getAllowedTargetTypes self = [] ↔ allowedTargetInterfaces self = [])
  ∧ (allowedSourceInterfaces self ≠ [] →
     last (getAllowedSourceTypes self) = Some "spam")
  ∧ (allowedTargetInterfaces self ≠ [] →
     last (getAllowedTargetTypes self) = Some "spam").
Proof.
  rewrite InterfaceConstraint_source_types, InterfaceConstraint_target_types.
  destruct (allowedSourceInterfaces self) as [|i asi];
    destruct (allowedTargetInterfaces self) as [|j ati].
  all: repeat split; try done; try discriminate.
  all: try (intros Happ; by apply app_nil in Happ as [_ ?]).
  all: intros _; apply last_snoc.
Qed.

(** X8: the appended ['spam'] changes nothing for any other portal type:
    with interfaces configured, a type other than ['spam'] is let through
    exactly when the lookup returns it. *)
Theorem InterfaceConstraint_allows_looked_up self (k : string) :
  k ≠ "spam" →
  (allowedSourceInterfaces self ≠ [] →
   allows (getAllowedSourceTypes self) k
   ↔ k ∈ getPortalTypesByInterfaces self (allowedSourceInterfaces self))
  ∧ (allowedTargetInterfaces self ≠ [] →
     allows (getAllowedTargetTypes self) k
     ↔ k ∈ getPortalTypesByInterfaces self (allowedTargetInterfaces self)).
Proof.
  intros Hreal.
  rewrite InterfaceConstraint_source_types, InterfaceConstraint_target_types.
  split.
  - destruct (allowedSourceInterfaces self) as [|i asi]; [done|]. intros _.
    unfold allows. rewrite elem_of_app, list_elem_of_singleton. split.
    + intros [Happ | [Hin | Hspam]]; [|done|done].
      by apply app_nil in Happ as [_ ?].
    + intros Hin. right. by left.
  - destruct (allowedTargetInterfaces self) as [|j ati]; [done|]. intros _.
    unfold allows. rewrite elem_of_app, list_elem_of_singleton. split.
    + intros [Happ | [Hin | Hspam]]; [|done|done].
      by apply app_nil in Happ as [_ ?].
    + intros Hin. right. by left.
Qed.

(** X7: the portal type ['spam'] gets past every [InterfaceConstraint],
    whatever interfaces are configured and whatever the lookup returns: a
    reference between two brains of that type passes [validateConnected],
    and such a target stays in the vocabulary of such a source. *)
Theorem InterfaceConstraint_spam_passes
    {Hit B Chain : Type} `{!PortalTyped B}
    `{!Catalog InterfaceConstraint Hit B}
    self (reference : Reference B) (chain : Chain) :
  portal_type (getSourceBrain reference) = "spam" →
  portal_type (getTargetBrain reference) = "spam" →
  validateConnected self reference chain = Returned tt
  ∧ makeVocabulary self (getSourceBrain reference)
      (Some [getTargetBrain reference]) = [getTargetBrain reference].
Proof.
  intros Hs Ht.
  assert (Hsource : allows (getAllowedSourceTypes self) "spam").
  { rewrite InterfaceConstraint_source_types.
    destruct (allowedSourceInterfaces self); [by left|].
    right. apply elem_of_app. right. by apply list_elem_of_singleton. }
  assert (Htarget : allows (getAllowedTargetTypes self) "spam").
  { rewrite InterfaceConstraint_target_types.
    destruct (allowedTargetInterfaces self); [by left|].
    right. apply elem_of_app. right. by apply list_elem_of_singleton. }
  split.
  - apply validateConnected_returns_iff. by rewrite Hs, Ht.
  - rewrite makeVocabulary_cases, Hs.
    destruct (decide _) as [_ | Hno]; [|contradiction].
    rewrite filter_cons_True by (by rewrite Ht). done.
Qed.

End interfaces_more.

(** ** Rules with the same allowed types *)

(** X11: only the elements of the two lists matter, not their order or
    repetitions: two rules, of either class, whose resolved lists have the
    same elements side by side, in rulesets of the same title, validate
    every reference alike and filter every list of targets alike. *)
Theorem same_elements_same_rule
    {R1 R2 : Type} `{!Constraint R1} `{!Constraint R2}
    {S Hit1 Hit2 Item B Chain : Type}
    `{!PortalTyped S} `{!PortalTyped Item} `{!PortalTyped B}
    `{!Catalog R1 Hit1 Item} `{!Catalog R2 Hit2 Item}
    (r1 : R1) (r2 : R2) (ref : Reference B) (ch : Chain)
    (source : S) (targets : list Item) :
  (∀ k, k ∈ getAllowedSourceTypes r1 ↔ k ∈ getAllowedSourceTypes r2) →
  (∀ k, k ∈ getAllowedTargetTypes r1 ↔ k ∈ getAllowedTargetTypes r2) →
  Title (getRuleset r1) = Title (getRuleset r2) →
  validateConnected r1 ref ch = validateConnected r2 ref ch
  ∧ makeVocabulary r1 source (Some targets)
    = makeVocabulary r2 source (Some targets).
Proof.
  intros Hs Ht Htitle. split.
  - rewrite !validateConnected_cases.
    unfold source_failure, target_failure. rewrite Htitle.
    pose proof (allows_same_elements _ _
                  (portal_type (getSourceBrain ref)) Hs) as Hsrc.
    pose proof (allows_same_elements _ _
                  (portal_type (getTargetBrain ref)) Ht) as Htgt.
    repeat destruct (decide _); tauto.
  - rewrite !makeVocabulary_cases.
    pose proof (allows_same_elements _ _ (portal_type source) Hs) as Hsrc.
    repeat destruct (decide _); try tauto.
    apply list_filter_iff. intros t. by apply allows_same_elements.
Qed.

(** ** The vocabulary of the schema fields *)

(** X12: the entries handed to [DisplayList] by [_allowedTypesVocabulary]
    are the referenceable types, in their order and as often as they are
    listed, each one both the key and the label of its entry. *)
Theorem allowedTypesVocabulary_entries
    {R D : Type} `{!ReferenceableTypes R} `{!DisplayLists D} (self : R) :
  ∃ entries : list (string * string),
    _allowedTypesVocabulary self = DisplayList entries
    ∧ entries.*1 = getReferenceableTypes self
    ∧ entries.*2 = getReferenceableTypes self
    ∧ length entries = length (getReferenceableTypes self).
Proof.
  eexists. split; [reflexivity|].
  induction (getReferenceableTypes self) as [|pt pts (IH1 & IH2 & IH3)];
    [done|].
  repeat split; simpl; f_equal; assumption.
Qed.

(** ** The further theorems at work on the example site *)

Section examples_more.
#[local] Existing Instance Examples.site_lookup.
#[local] Existing Instance Examples.site_catalog.

Import Examples.

(** A document may start a relation of [document_to_image], a folder may
    not end it. *)
Lemma validateConnected_target_disallowed_example :
  allows (getAllowedSourceTypes document_to_image)
    (portal_type (getSourceBrain document_to_folder))
  ∧ getAllowedTargetTypes document_to_image ≠ []
  ∧ (portal_type (getTargetBrain document_to_folder)
       ∉ getAllowedTargetTypes document_to_image)
  ∧ validateConnected document_to_image document_to_folder tt =
      Raised (mkValidationException
                "Target type Folder not allowed for 'Relates to'."
                document_to_folder tt).
Proof.
  assert (Hs : allows (getAllowedSourceTypes document_to_image)
                 (portal_type (getSourceBrain document_to_folder)))
    by (right; apply py_in_true; reflexivity).
  assert (Hne : getAllowedTargetTypes document_to_image ≠ []) by discriminate.
  assert (Hout : portal_type (getTargetBrain document_to_folder)
                   ∉ getAllowedTargetTypes document_to_image)
    by (apply py_in_false; reflexivity).
  split; [exact Hs|]. split; [exact Hne|]. split; [exact Hout|].
  exact (validateConnected_target_disallowed
           document_to_image document_to_folder tt Hs Hne Hout).
Defined.

Lemma getSearchTerms_shape_example :
  getAllowedTargetTypes images_only ≠ []
  ∧ getSearchTerms images_only = {[ "portal_type" := ["Image"] ]}
  ∧ getSearchTerms images_only !! "portal_type" = Some ["Image"]
  ∧ getAllowedTargetTypes unrestricted = []
  ∧ getSearchTerms unrestricted = ∅.
Proof.
  assert (Hne : getAllowedTargetTypes images_only ≠ []) by discriminate.
  destruct (getSearchTerms_shape images_only) as (_ & Hone & Hkey).
  destruct (getSearchTerms_shape unrestricted) as (Hempty & _ & _).
  split; [exact Hne|]. split; [exact (Hone Hne)|].
  split; [by rewrite (Hone Hne), lookup_singleton_eq|].
  split; [reflexivity | exact (proj2 Hempty eq_refl)].
Defined.

(** On the example site the search for images finds what filtering the
    whole catalog finds. *)
Lemma search_agrees_with_filter_example :
  (∀ kinds, uid_catalog images_only {[ "portal_type" := kinds ]}
            = filter (λ h, portal_type h ∈ kinds)
                (uid_catalog images_only ∅))
  ∧ (∀ h, portal_type (makeBrainAggregate images_only h) = portal_type h)
  ∧ makeVocabulary images_only folder None
    = makeVocabulary images_only folder
        (Some (makeBrainAggregate images_only <$> uid_catalog images_only ∅))
  ∧ makeVocabulary images_only folder
      (Some (makeBrainAggregate images_only <$> uid_catalog images_only ∅))
    = [item1].
Proof.
  assert (Hcat : ∀ kinds,
            uid_catalog images_only {[ "portal_type" := kinds ]}
            = filter (λ h, portal_type h ∈ kinds) (uid_catalog images_only ∅))
    by (intros kinds; apply Catalog_of_answers).
  assert (Hagg : ∀ h : Brain,
            portal_type (makeBrainAggregate images_only h) = portal_type h)
    by (intros h; reflexivity).
  split; [exact Hcat|]. split; [exact Hagg|].
  split; [|reflexivity].
  exact (search_agrees_with_filter images_only folder Hcat Hagg).
Defined.

Lemma InterfaceConstraint_restricted_iff_example :
  allowedSourceInterfaces referenceable_to_folder ≠ []
  ∧ allowedTargetInterfaces referenceable_to_folder ≠ []
  ∧ last (getAllowedSourceTypes referenceable_to_folder) = Some "spam"
  ∧ last (getAllowedTargetTypes referenceable_to_folder) = Some "spam"
  ∧ getAllowedTargetTypes referenceable_to_folder = ["Folder"; "spam"].
Proof.
  assert (Hs : allowedSourceInterfaces referenceable_to_folder ≠ [])
    by discriminate.
  assert (Ht : allowedTargetInterfaces referenceable_to_folder ≠ [])
    by discriminate.
  destruct (InterfaceConstraint_restricted_iff referenceable_to_folder)
    as (_ & _ & Hlast_s & Hlast_t).
  split; [exact Hs|]. split; [exact Ht|].
  split; [exact (Hlast_s Hs)|]. split; [exact (Hlast_t Ht) | reflexivity].
Defined.

Lemma InterfaceConstraint_allows_looked_up_example :
  "Image" ≠ "spam"
  ∧ allowedSourceInterfaces referenceable_to_folder ≠ []
  ∧ allowedTargetInterfaces referenceable_to_folder ≠ []
  ∧ "Image" ∈ getPortalTypesByInterfaces referenceable_to_folder
                (allowedSourceInterfaces referenceable_to_folder)
  ∧ allows (getAllowedSourceTypes referenceable_to_folder) "Image"
  ∧ ("Image" ∉ getPortalTypesByInterfaces referenceable_to_folder
                 (allowedTargetInterfaces referenceable_to_folder))
  ∧ ¬ allows (getAllowedTargetTypes referenceable_to_folder) "Image".
Proof.
  assert (Hreal : "Image" ≠ "spam") by discriminate.
  assert (Hs : allowedSourceInterfaces referenceable_to_folder ≠ [])
    by discriminate.
  assert (Ht : allowedTargetInterfaces referenceable_to_folder ≠ [])
    by discriminate.
  assert (Hin : "Image" ∈ getPortalTypesByInterfaces referenceable_to_folder
                            (allowedSourceInterfaces referenceable_to_folder))
    by (apply py_in_true; reflexivity).
  assert (Hout : "Image" ∉ getPortalTypesByInterfaces referenceable_to_folder
                             (allowedTargetInterfaces referenceable_to_folder))
    by (apply py_in_false; reflexivity).
  destruct (InterfaceConstraint_allows_looked_up referenceable_to_folder
              "Image" Hreal) as (Hsource & Htarget).
  split; [exact Hreal|]. split; [exact Hs|]. split; [exact Ht|].
  split; [exact Hin|]. split; [exact (proj2 (Hsource Hs) Hin)|].
  split; [exact Hout|].
  intros Hallowed. exact (Hout (proj1 (Htarget Ht) Hallowed)).
Defined.

(** No kind of the site provides [IFoo], and yet a brain of portal type
    ['spam'] may start a relation of [foo_sources]. *)
Lemma InterfaceConstraint_spam_passes_example :
  portal_type (getSourceBrain tin_to_tin) = "spam"
  ∧ portal_type (getTargetBrain tin_to_tin) = "spam"
  ∧ validateConnected foo_sources tin_to_tin tt
    = (Returned tt : outcome (ValidationException Brain unit) unit)
  ∧ makeVocabulary foo_sources tin (Some [tin]) = [tin].
Proof.
  split; [reflexivity|]. split; [reflexivity|].
  exact (InterfaceConstraint_spam_passes foo_sources tin_to_tin tt
           eq_refl eq_refl).
Defined.

Lemma same_elements_same_rule_example :
  (∀ k, k ∈ getAllowedSourceTypes document_to_image
        ↔ k ∈ getAllowedSourceTypes document_to_image_again)
  ∧ (∀ k, k ∈ getAllowedTargetTypes document_to_image
          ↔ k ∈ getAllowedTargetTypes document_to_image_again)
  ∧ Title (getRuleset document_to_image)
    = Title (getRuleset document_to_image_again)
  ∧ validateConnected document_to_image document_to_folder tt
    = validateConnected document_to_image_again document_to_folder tt
  ∧ makeVocabulary document_to_image item0 (Some [item0; item1; item2])
    = makeVocabulary document_to_image_again item0
        (Some [item0; item1; item2]).
Proof.
  assert (Hs : ∀ k, k ∈ getAllowedSourceTypes document_to_image
                    ↔ k ∈ getAllowedSourceTypes document_to_image_again)
    by (intros k; simpl; rewrite !elem_of_cons; tauto).
  assert (Ht : ∀ k, k ∈ getAllowedTargetTypes document_to_image
                    ↔ k ∈ getAllowedTargetTypes document_to_image_again)
    by (intros k; simpl; rewrite !elem_of_cons; tauto).
  split; [exact Hs|]. split; [exact Ht|]. split; [reflexivity|].
  exact (same_elements_same_rule document_to_image document_to_image_again
           document_to_folder tt item0 [item0; item1; item2] Hs Ht eq_refl).
Defined.

End examples_more.
